(** * Surgical Complication AI assistant: the knowledge-base layer

    A shallow embedding of the logic that is original to the repository:

    - [src/data_loader.py]: [load_json_knowledgebase], [prepare_documents];
    - [streamlit_app.py]: [search_knowledge_base] and the protocol formatting
      block of the first tab;
    - [src/ai_engine.py]: [generate_response].

    Text is modelled as [string] (a sequence of 8-bit characters).  The
    builtins [str.lower], [str.strip] and the class [\d] are modelled on
    ASCII text: [lower] maps [A-Z] to [a-z] and leaves every other character
    alone, whitespace is the ASCII whitespace of [str.isspace], digits are
    [0-9].

    The records follow the schema of [data/surgical_knowledge.json] as the
    code reads it: a key read by subscripting somewhere
    ([surgery["surgery_name"]], [surgery["complications"]],
    [complication["name"]]) is a field that is always there; a key only ever
    read with [.get(key, default)] is an optional field. *)

From Stdlib Require Import String Ascii List Bool Arith Lia.
From Stdlib Require Import DecimalString.
Import ListNotations.
Open Scope list_scope.
Open Scope string_scope.

(** ** Python values the code relies on *)

Module Py.

(** The exceptions the modelled code can meet.  [is_Exception] tells the
    instances of [Exception] from those that derive from [BaseException]
    only ([KeyboardInterrupt], [SystemExit]); [str_of] is [str(e)]. *)
Inductive exn : Type :=
| IndexError
| JSONDecodeError (msg : string)
| OSError (msg : string)
| OtherException (msg : string)
| KeyboardInterrupt.

Definition is_Exception (e : exn) : bool :=
  match e with
  | KeyboardInterrupt => false
  | _ => true
  end.

Definition str_of (e : exn) : string :=
  match e with
  | IndexError => "list index out of range"
  | JSONDecodeError msg => msg
  | OSError msg => msg
  | OtherException msg => msg
  | KeyboardInterrupt => ""
  end.

(** What a call does: it returns a value or raises. *)
Inductive outcome (A : Type) : Type :=
| Return (a : A)
| Raise (e : exn).
Arguments Return {A} a.
Arguments Raise {A} e.

(** [c.lower()] on one character. *)
Definition lower_char (c : ascii) : ascii :=
  let n := nat_of_ascii c in
  if ((65 <=? n) && (n <=? 90))%nat then ascii_of_nat (n + 32) else c.

(** [s.lower()] *)
Fixpoint lower (s : string) : string :=
  match s with
  | EmptyString => EmptyString
  | String c s' => String (lower_char c) (lower s')
  end.

(** [s.startswith(p)] *)
Fixpoint startswith (p s : string) : bool :=
  match p, s with
  | EmptyString, _ => true
  | String _ _, EmptyString => false
  | String a p', String b s' => Ascii.eqb a b && startswith p' s'
  end.

(** [sub in s]: [sub] occurs in [s] as a contiguous run of characters. *)
Fixpoint str_in (sub s : string) : bool :=
  if startswith sub s then true
  else match s with
       | EmptyString => false
       | String _ s' => str_in sub s'
       end.

(** [str.isspace] on an ASCII character: tab, line feed, vertical tab,
    form feed, carriage return, the four separators 28-31 and the space. *)
Definition isspace (c : ascii) : bool :=
  let n := nat_of_ascii c in
  (((9 <=? n) && (n <=? 13)) || ((28 <=? n) && (n <=? 32)))%nat.

(** [s.lstrip()] *)
Fixpoint lstrip (s : string) : string :=
  match s with
  | EmptyString => EmptyString
  | String c s' => if isspace c then lstrip s' else s
  end.

(** [s.rstrip()] *)
Fixpoint rstrip (s : string) : string :=
  match s with
  | EmptyString => EmptyString
  | String c s' =>
      match rstrip s' with
      | EmptyString => if isspace c then EmptyString else String c EmptyString
      | r => String c r
      end
  end.

(** [s.strip()] *)
Definition strip (s : string) : string := rstrip (lstrip s).

(** [str(n)] for a natural number: its decimal digits. *)
Definition str_of_nat (n : nat) : string :=
  NilEmpty.string_of_uint (Nat.to_uint n).

(** The line feed character. *)
Definition nl : string := String (ascii_of_nat 10) EmptyString.

End Py.

Import Py.

(** ** The data model of the knowledge base *)

Record Complication : Type := mkComplication {
  name : string;
  etiology : option string;
  risk_factors : option string;
  diagnostic_criteria : option string;
  protocol : option string;
  references : list string
}.

Record Surgery : Type := mkSurgery {
  surgery_name : string;
  category : option string;
  complications : list Complication
}.

Record KnowledgeBase : Type := mkKnowledgeBase {
  surgeries : list Surgery
}.

(** ** [streamlit_app.py]: the knowledge base browser *)

Module App.

(** The triple [search_knowledge_base] returns; [(None, None, None)] when
    nothing is found. *)
Definition triple : Type :=
  (option string * option string * option Surgery)%type.

Definition none_triple : triple := (None, None, None).

(** The inner loop, [for complication in surgery["complications"]]:
    [Some] is its [return], [None] is the loop running to its end. *)
Fixpoint scan_complications (search_term : string) (surgery : Surgery)
    (comps : list Complication) : option triple :=
  match comps with
  | [] => None
  | complication :: rest =>
      let comp_name := name complication in
      if str_in search_term (lower comp_name)
      then Some (Some (surgery_name surgery), Some comp_name, Some surgery)
      else scan_complications search_term surgery rest
  end.

(** The outer loop, [for surgery in kb_data["surgeries"]], with the final
    [return None, None, None] once the list is exhausted. *)
Fixpoint scan_surgeries (search_term : string) (ss : list Surgery)
    : outcome triple :=
  match ss with
  | [] => Return none_triple
  | surgery :: rest =>
      if str_in search_term (lower (surgery_name surgery))
      then
        (* first_comp = surgery["complications"][0] *)
        match complications surgery with
        | [] => Raise IndexError
        | first_comp :: _ =>
            Return (Some (surgery_name surgery), Some (name first_comp),
                    Some surgery)
        end
      else
        match scan_complications search_term surgery (complications surgery) with
        | Some found => Return found
        | None => scan_surgeries search_term rest
        end
  end.

Definition search_knowledge_base (query : string) (kb_data : KnowledgeBase)
    : outcome triple :=
  match query with
  | EmptyString => Return none_triple            (* if not query *)
  | _ => scan_surgeries (lower query) (surgeries kb_data)
  end.

End App.

(** ** [streamlit_app.py]: the protocol formatting block

    [re.findall(r'Step \d+: (.*?)(?=Step \d+: |$)', protocol_text, re.DOTALL)]
    followed by the loop that numbers the steps. *)

Module Protocol.

(** [\d] *)
Definition isdigit (c : ascii) : bool :=
  let n := nat_of_ascii c in
  ((48 <=? n) && (n <=? 57))%nat.

(** A literal of the pattern matched at the start of [s]: what follows it. *)
Fixpoint literal (p s : string) : option string :=
  match p, s with
  | EmptyString, _ => Some s
  | String _ _, EmptyString => None
  | String a p', String b s' => if Ascii.eqb a b then literal p' s' else None
  end.

(** The rest of a greedy [\d*].  Giving back a digit never helps the
    pattern, where a colon follows the digits, so greedy is all there is. *)
Fixpoint skip_digits (s : string) : string :=
  match s with
  | EmptyString => EmptyString
  | String c s' => if isdigit c then skip_digits s' else s
  end.

(** [Step \d+: ] matched at the start of [s]: what follows the marker. *)
Definition match_marker (s : string) : option string :=
  match literal "Step " s with
  | Some (String d r) =>
      if isdigit d then literal ": " (skip_digits r) else None
  | _ => None
  end.

(** [$] without [re.MULTILINE]: the end of the string, or the line feed
    that ends it. *)
Definition at_end (s : string) : bool :=
  match s with
  | EmptyString => true
  | String c EmptyString => Ascii.eqb c (ascii_of_nat 10)
  | _ => false
  end.

(** The lookahead [(?=Step \d+: |$)]. *)
Definition lookahead (s : string) : bool :=
  match match_marker s with
  | Some _ => true
  | None => at_end s
  end.

(** The lazy group [(.*?)] under [re.DOTALL], up to the first place where
    the lookahead holds: the group and what is left of the string. *)
Fixpoint lazy_group (s : string) : string * string :=
  if lookahead s then (EmptyString, s)
  else match s with
       | EmptyString => (EmptyString, EmptyString)
       | String c s' => let (group, rest) := lazy_group s' in (String c group, rest)
       end.

(** [re.findall]: the groups of the successive matches, left to right.  A
    match is never empty, so the next search starts where it ended; where
    the pattern does not match, the search moves one character on. *)
Fixpoint findall_from (fuel : nat) (s : string) : list string :=
  match fuel with
  | O => []
  | S fuel' =>
      match match_marker s with
      | Some after =>
          let (group, rest) := lazy_group after in
          group :: findall_from fuel' rest
      | None =>
          match s with
          | EmptyString => []
          | String _ s' => findall_from fuel' s'
          end
      end
  end.

Definition findall (s : string) : list string :=
  findall_from (S (String.length s)) s.

(** One line of the numbered list: [f"{i + 1}. **{clean_step}**\n"]. *)
Definition numbered_line (i : nat) (step : string) : string :=
  let clean_step := strip step in
  str_of_nat (i + 1) ++ ". **" ++ clean_step ++ "**" ++ nl.

(** [for i, step in enumerate(step_content_matches)], threading
    [formatted_protocol]. *)
Fixpoint number_steps (i : nat) (steps : list string)
    (formatted_protocol : string) : string :=
  match steps with
  | [] => formatted_protocol
  | step :: rest =>
      number_steps (S i) rest (formatted_protocol ++ numbered_line i step)
  end.

(** The block under [if is_valid_selection:]. *)
Definition format_protocol (protocol_text : string) : string :=
  match findall protocol_text with
  | [] => protocol_text
  | step_content_matches => number_steps 0 step_content_matches ""
  end.

End Protocol.

(** ** [src/data_loader.py] *)

Module Metadata.

(** The [metadata] dictionary of a document, one field per key. *)
Record t : Type := mk {
  surgery : string;
  complication : string;
  category : option string;
  etiology : string;
  risk_factors : string;
  diagnostic_criteria : string;
  protocol : string;
  source : string
}.

End Metadata.

Module DataLoader.

(** A LangChain [Document]. *)
Record Document : Type := mkDocument {
  page_content : string;
  metadata : Metadata.t
}.

(** The file system and the JSON parser, as far as the loader meets them:
    [os.path.exists], [open(filepath, 'r')] read to its end, [json.load]. *)
Record World : Type := mkWorld {
  path_exists : string -> bool;
  open_read : string -> outcome string;
  json_load : string -> outcome KnowledgeBase
}.

(** What [load_json_knowledgebase] printed, and what it returned or
    raised. *)
Definition load_json_knowledgebase (w : World) (filepath : string)
    : list string * outcome KnowledgeBase :=
  if negb (path_exists w filepath) then
    (["Error: Knowledge base file not found at " ++ filepath],
     Return {| surgeries := [] |})
  else
    match open_read w filepath with
    | Raise e => ([], Raise e)
    | Return f => ([], json_load w f)
    end.

(** [d.get(key, default)] on an optional field. *)
Definition get (field : option string) (default : string) : string :=
  match field with
  | Some v => v
  | None => default
  end.

(** The body of the inner loop: the document of one complication. *)
Definition make_document (surgery_name : string) (category : option string)
    (complication : Complication) : Document :=
  let comp_name := name complication in
  let etiology := get (etiology complication) "N/A" in
  let risk_factors := get (risk_factors complication) "N/A" in
  let diagnostic_criteria := get (diagnostic_criteria complication) "N/A" in
  let protocol := get (protocol complication) "N/A" in
  let content :=
    "Surgical Complication: " ++ comp_name ++ " during/after " ++ surgery_name ++ ". "
    ++ "Clinical Context (Etiology): " ++ etiology ++ ". "
    ++ "Key Risk Factors: " ++ risk_factors ++ ". "
    ++ "Diagnostic Criteria (Signs/Labs/Imaging): " ++ diagnostic_criteria ++ ". "
    ++ "Management Protocol: " ++ protocol in
  {| page_content := content;
     metadata :=
       {| Metadata.surgery := surgery_name;
          Metadata.complication := comp_name;
          Metadata.category := category;
          Metadata.etiology := etiology;
          Metadata.risk_factors := risk_factors;
          Metadata.diagnostic_criteria := diagnostic_criteria;
          Metadata.protocol := protocol;
          Metadata.source := surgery_name ++ " - " ++ comp_name |} |}.

(** [for complication in surgery.get("complications", [])], threading
    [documents]; [documents.append(doc)] adds at the end. *)
Fixpoint each_complication (surgery_name : string) (category : option string)
    (comps : list Complication) (documents : list Document) : list Document :=
  match comps with
  | [] => documents
  | complication :: rest =>
      each_complication surgery_name category rest
        (documents ++ [make_document surgery_name category complication])%list
  end.

(** [for surgery in kb_data.get("surgeries", [])], threading [documents]. *)
Fixpoint each_surgery (ss : list Surgery) (documents : list Document)
    : list Document :=
  match ss with
  | [] => documents
  | surgery :: rest =>
      each_surgery rest
        (each_complication (surgery_name surgery) (category surgery)
           (complications surgery) documents)
  end.

Definition prepare_documents (kb_data : KnowledgeBase) : list Document :=
  each_surgery (surgeries kb_data) [].

End DataLoader.

(** ** [src/ai_engine.py] *)

Module AiEngine.

(** The RAG chain, as far as [generate_response] meets it:
    [rag_chain.invoke({"question": query})] returns the completion as text
    or raises whatever retrieval or the model raised. *)
Record Chain : Type := mkChain {
  invoke : string -> outcome string
}.

(** [try: ... except Exception as e: ...] *)
Definition generate_response (rag_chain : Chain) (query : string)
    : outcome string :=
  match invoke rag_chain query with
  | Return response => Return response
  | Raise e =>
      if is_Exception e
      then Return ("An error occurred during generation: " ++ str_of e)
      else Raise e
  end.

End AiEngine.

(** ** [streamlit_app.py]: the summary, the dropdowns and the detail view *)

Module Explorer.

Import App.

(** [sep.join(items)] *)
Fixpoint join (sep : string) (items : list string) : string :=
  match items with
  | [] => ""
  | item :: rest =>
      match rest with
      | [] => item
      | _ :: _ => item ++ sep ++ join sep rest
      end
  end.

(** The character NO-BREAK SPACE (U+00A0), as its two bytes in UTF-8. *)
Definition nbsp : string :=
  String (ascii_of_nat 194) (String (ascii_of_nat 160) EmptyString).

(** [for surgery in kb_data["surgeries"]] of [get_protocol_summary],
    threading [summary]; the category is
    [surgery.get('category', 'General')].  The second line starts with a
    space and a no-break space, as the literal of the source does. *)
Fixpoint each_summary (ss : list Surgery) (summary : string) : string :=
  match ss with
  | [] => summary
  | surgery :: rest =>
      let comp_names := map name (complications surgery) in
      let summary :=
        summary ++ "- **" ++ surgery_name surgery ++ "** (`"
        ++ DataLoader.get (category surgery) "General" ++ "`)" ++ nl in
      let summary :=
        summary ++ " " ++ nbsp ++ "- Complications: "
        ++ join ", " comp_names ++ nl in
      each_summary rest summary
  end.

Definition get_protocol_summary (kb_data : KnowledgeBase) : string :=
  each_summary (surgeries kb_data) "".

(** [st.session_state.surgery_names] *)
Definition surgery_names (kb_data : KnowledgeBase) : list string :=
  map surgery_name (surgeries kb_data).

(** [next((s for s in kb_data["surgeries"]
           if s["surgery_name"] == selected_surgery_name), None)] *)
Definition selected_surgery (kb_data : KnowledgeBase)
    (selected_surgery_name : string) : option Surgery :=
  find (fun s => (surgery_name s =? selected_surgery_name)%string)
       (surgeries kb_data).

(** [comp_names_list] *)
Definition comp_names_list (selected_surgery : Surgery) : list string :=
  map name (complications selected_surgery).

(** [next((c for c in selected_surgery["complications"]
           if c["name"] == selected_comp_name), default_data)];
    [None] stands for [default_data], the placeholder texts. *)
Definition selected_comp_data (selected_surgery : Surgery)
    (selected_comp_name : string) : option Complication :=
  find (fun c => (name c =? selected_comp_name)%string)
       (complications selected_surgery).

Definition PH_SURGERY : string := "--- Select a Surgery ---".
Definition PH_COMPLICATION : string := "--- Select a Complication ---".

(** The dropdown mode, given what the two menus hold: the surgery that is
    looked up and [is_valid_selection].  The complication menu is only
    drawn, and only counts, once a surgery is found. *)
Definition explorer_selection (kb_data : KnowledgeBase)
    (dd_surgery dd_complication : string) : option Surgery * bool :=
  if negb (dd_surgery =? PH_SURGERY)%string then
    match selected_surgery kb_data dd_surgery with
    | Some s => (Some s, negb (dd_complication =? PH_COMPLICATION)%string)
    | None => (None, false)
    end
  else (None, false).

(** [is_valid_selection] after a search:
    [selected_surgery_name is not None and selected_comp_name is not None]. *)
Definition is_valid_selection (found : triple) : bool :=
  match found with
  | (Some _, Some _, _) => true
  | _ => false
  end.

End Explorer.

(** ** [streamlit_app.py]: the search on dictionaries with missing keys

    [search_knowledge_base] once more, on knowledge bases as [json.load]
    may give them: the values have the types of the schema, but any key may
    be missing, and [d[key]] on a dictionary without the key raises
    [KeyError]. *)

Module Raw.

Record Complication : Type := mkComplication {
  name : option string;
  etiology : option string;
  risk_factors : option string;
  diagnostic_criteria : option string;
  protocol : option string;
  references : option (list string)
}.

Record Surgery : Type := mkSurgery {
  surgery_name : option string;
  category : option string;
  complications : option (list Complication)
}.

Record KnowledgeBase : Type := mkKnowledgeBase {
  surgeries : option (list Surgery)
}.

(** What the search can raise. *)
Inductive error : Type :=
| KeyError (key : string)
| IndexError.

Inductive result (A : Type) : Type :=
| Returns (a : A)
| Raises (e : error).
Arguments Returns {A} a.
Arguments Raises {A} e.

Definition triple : Type :=
  (option string * option string * option Surgery)%type.

Definition none_triple : triple := (None, None, None).

(** [for complication in comps]: [Returns (Some _)] is the [return] of the
    loop, [Returns None] the loop running to its end. *)
Fixpoint scan_complications (search_term : string) (surgery_name : string)
    (surgery : Surgery) (comps : list Complication) : result (option triple) :=
  match comps with
  | [] => Returns None
  | complication :: rest =>
      match name complication with                 (* complication["name"] *)
      | None => Raises (KeyError "name")
      | Some comp_name =>
          if str_in search_term (lower comp_name)
          then Returns (Some (Some surgery_name, Some comp_name, Some surgery))
          else scan_complications search_term surgery_name surgery rest
      end
  end.

Fixpoint scan_surgeries (search_term : string) (ss : list Surgery)
    : result triple :=
  match ss with
  | [] => Returns none_triple
  | surgery :: rest =>
      match surgery_name surgery with              (* surgery["surgery_name"] *)
      | None => Raises (KeyError "surgery_name")
      | Some surgery_name =>
          if str_in search_term (lower surgery_name)
          then
            match complications surgery with       (* surgery["complications"][0] *)
            | None => Raises (KeyError "complications")
            | Some [] => Raises IndexError
            | Some (first_comp :: _) =>
                match name first_comp with         (* first_comp["name"] *)
                | None => Raises (KeyError "name")
                | Some first_name =>
                    Returns (Some surgery_name, Some first_name, Some surgery)
                end
            end
          else
            match complications surgery with       (* surgery["complications"] *)
            | None => Raises (KeyError "complications")
            | Some comps =>
                match scan_complications search_term surgery_name surgery comps with
                | Raises e => Raises e
                | Returns (Some found) => Returns found
                | Returns None => scan_surgeries search_term rest
                end
            end
      end
  end.

Definition search_knowledge_base (query : string) (kb_data : KnowledgeBase)
    : result triple :=
  match query with
  | EmptyString => Returns none_triple             (* if not query *)
  | _ =>
      match surgeries kb_data with                 (* kb_data["surgeries"] *)
      | None => Raises (KeyError "surgeries")
      | Some ss => scan_surgeries (lower query) ss
      end
  end.

End Raw.

(** ** The vocabulary of the properties *)

Module Browse.

Import App.

(** The search term occurs in the lowercased name of the surgery. *)
Definition name_matches (search_term : string) (s : Surgery) : bool :=
  str_in search_term (lower (surgery_name s)).

(** The search term occurs in the lowercased name of the complication. *)
Definition comp_matches (search_term : string) (c : Complication) : bool :=
  str_in search_term (lower (name c)).

(** The surgery answers the search term, by its own name or by the name of
    one of its complications. *)
Definition surgery_hit (search_term : string) (s : Surgery) : bool :=
  name_matches search_term s
  || existsb (comp_matches search_term) (complications s).

(** A match on the name of any surgery of the knowledge base decides the
    answer: that surgery with its first complication. *)
Definition surgery_name_match_wins (query : string) (kb : KnowledgeBase) : Prop :=
  forall s, In s (surgeries kb) ->
    name_matches (lower query) s = true ->
    exists c, hd_error (complications s) = Some c /\
      search_knowledge_base query kb
      = Return (Some (surgery_name s), Some (name c), Some s).

(** A match on the name of any surgery without complications makes the
    search raise [IndexError]. *)
Definition empty_surgery_match_raises (query : string) (kb : KnowledgeBase) : Prop :=
  forall s, In s (surgeries kb) ->
    name_matches (lower query) s = true ->
    complications s = [] ->
    search_knowledge_base query kb = Raise IndexError.

(** Sample knowledge bases. *)
Definition comp (n : string) : Complication :=
  mkComplication n None None None None [].

Definition colectomy : Surgery :=
  mkSurgery "Colectomy" (Some "Colorectal")
    [comp "Anastomotic Leak"; comp "Bleeding"].

Definition cholecystectomy : Surgery :=
  mkSurgery "Cholecystectomy" (Some "Hepatobiliary")
    [comp "Bile Duct Injury"; comp "Port-site Hernia"].

Definition hernia_repair : Surgery :=
  mkSurgery "Hernia Repair" None [comp "Mesh Infection"].

Definition hemicolectomy : Surgery :=
  mkSurgery "Hemicolectomy" None [].

Definition kb_sample : KnowledgeBase :=
  mkKnowledgeBase [colectomy; cholecystectomy; hernia_repair].

Definition kb_with_empty : KnowledgeBase :=
  mkKnowledgeBase [colectomy; hemicolectomy].

End Browse.

Module Prepared.

Import DataLoader.

(** One document per complication, surgery by surgery and, within a
    surgery, complication by complication. *)
Definition one_per_complication (kb : KnowledgeBase) : list Document :=
  flat_map
    (fun s => map (make_document (surgery_name s) (category s)) (complications s))
    (surgeries kb).

(** The number of complications of the knowledge base. *)
Definition complication_count (kb : KnowledgeBase) : nat :=
  list_sum (map (fun s => List.length (complications s)) (surgeries kb)).

(** The [source] labels of the prepared documents, in order. *)
Definition sources (kb : KnowledgeBase) : list string :=
  map (fun d => Metadata.source (metadata d)) (prepare_documents kb).

(** The (surgery name, complication name) pairs of the knowledge base, in
    order. *)
Definition name_pairs (kb : KnowledgeBase) : list (string * string) :=
  flat_map
    (fun s => map (fun c => (surgery_name s, name c)) (complications s))
    (surgeries kb).

(** No two prepared documents have the same [source]. *)
Definition sources_unique (kb : KnowledgeBase) : Prop := NoDup (sources kb).

(** The synthesized paragraph, with the text that stands for each of the
    four clinical fields. *)
Definition paragraph (comp_name surgery_name : string)
    (etiology risk_factors diagnostic_criteria protocol : string) : string :=
  "Surgical Complication: " ++ comp_name ++ " during/after " ++ surgery_name
  ++ ". Clinical Context (Etiology): " ++ etiology
  ++ ". Key Risk Factors: " ++ risk_factors
  ++ ". Diagnostic Criteria (Signs/Labs/Imaging): " ++ diagnostic_criteria
  ++ ". Management Protocol: " ++ protocol.

(** The text that stands for a clinical field: the marker when the field is
    missing, the field itself otherwise. *)
Definition stands_for (field : option string) (text : string) : Prop :=
  match field with
  | None => text = "N/A"
  | Some v => text = v
  end.

(** Two surgeries with different names, each with one complication, whose
    documents get the same [source]. *)
Definition kb_collision : KnowledgeBase :=
  mkKnowledgeBase
    [ mkSurgery "Hernia Repair - Open" None [Browse.comp "Recurrence"];
      mkSurgery "Hernia Repair" None [Browse.comp "Open - Recurrence"] ].

(** A complication with two of its clinical fields missing. *)
Definition leak_partial : Complication :=
  mkComplication "Anastomotic Leak"
    (Some "Ischemia at the staple line") None None
    (Some "Step 1: Resuscitate. Step 2: Start antibiotics.")
    ["http://example.org/guideline"].

Definition kb_partial : KnowledgeBase :=
  mkKnowledgeBase [mkSurgery "Colectomy" (Some "Colorectal") [leak_partial]].

(** A file system with the knowledge base in place and a parser that
    rejects what is not the text of [kb_partial]. *)
Definition world_sample : World :=
  mkWorld
    (fun path => (path =? "data/surgical_knowledge.json")%string
                 || (path =? "data/broken.json")%string)
    (fun path =>
       if (path =? "data/surgical_knowledge.json")%string then Return "{...}"
       else if (path =? "data/broken.json")%string then Return "{"
       else Raise (OSError "No such file or directory"))
    (fun text =>
       if (text =? "{...}")%string then Return kb_partial
       else Raise (JSONDecodeError "Expecting property name enclosed in double quotes")).

End Prepared.

Module Steps.





(** The items of a list numbered from [n], each body trimmed and set in
    bold. *)
Fixpoint items_from (n : nat) (bodies : list string) : list string :=
  match bodies with
  | [] => []
  | body :: rest =>
      (str_of_nat n ++ ". **" ++ strip body ++ "**") :: items_from (S n) rest
  end.

(** The items, one per line. *)
Fixpoint unlines (items : list string) : string :=
  match items with
  | [] => ""
  | item :: rest => item ++ nl ++ unlines rest
  end.

(** What may follow a body: nothing, or a text that starts like a marker. *)
Definition follows_body (t : string) : Prop :=
  t = "" \/ exists t', t = String "S"%char t'.

End Steps.

Module Padded.





(** A step written with whitespace around its text: the number, the
    whitespace in front, the text, the whitespace behind. *)
Record step : Type := mkStep {
  number : string;
  lead : string;
  core : string;
  trail : string
}.

Definition body (st : step) : string := lead st ++ core st ++ trail st.




End Padded.

Module Generation.

Import AiEngine.

(** A chain that answers one question and fails on the others, and a chain
    that is interrupted from the keyboard. *)
Definition chain_sample : Chain :=
  mkChain (fun q =>
             if (q =? "What causes bile duct injury?")%string
             then Return "### 1. Diagnosis & Presentation (Signs/Imaging)"
             else Raise (OtherException "429 Resource has been exhausted")).

Definition chain_interrupted : Chain :=
  mkChain (fun _ => Raise KeyboardInterrupt).

End Generation.

Module RawBrowse.



(** The dictionaries of a knowledge base in which every key is there. *)
Definition raw_complication (c : Complication) : Raw.Complication :=
  Raw.mkComplication (Some (name c)) (etiology c) (risk_factors c)
    (diagnostic_criteria c) (protocol c) (Some (references c)).

Definition raw_surgery (s : Surgery) : Raw.Surgery :=
  Raw.mkSurgery (Some (surgery_name s)) (category s)
    (Some (map raw_complication (complications s))).



(** A knowledge base in which the second surgery has no "complications"
    key, and one in which a complication has no "name" key. *)
Definition kb_no_complications : Raw.KnowledgeBase :=
  Raw.mkKnowledgeBase
    (Some [raw_surgery Browse.colectomy;
           Raw.mkSurgery (Some "Appendectomy") None None]).

Definition kb_no_name : Raw.KnowledgeBase :=
  Raw.mkKnowledgeBase
    (Some [Raw.mkSurgery (Some "Appendectomy") None
             (Some [Raw.mkComplication None None None None None None])]).

End RawBrowse.

Module Listing.

Import Explorer.

(** The two lines of the summary for one surgery; the second one starts
    with a space and a no-break space. *)
Definition summary_entry (s : Surgery) : string :=
  "- **" ++ surgery_name s ++ "** (`"
  ++ DataLoader.get (category s) "General" ++ "`)" ++ nl
  ++ " " ++ nbsp ++ "- Complications: "
  ++ join ", " (map name (complications s)) ++ nl.

End Listing.

Module Markers.

Import Protocol.

(** A marker [Step \d+: ] is matched somewhere in the text. *)
Fixpoint has_marker (s : string) : bool :=
  match match_marker s with
  | Some _ => true
  | None =>
      match s with
      | EmptyString => false
      | String _ s' => has_marker s'
      end
  end.

End Markers.

(** * Properties *)

(** ** Strings *)

Module StringFacts.

Lemma startswith_app (p r : string) : startswith p (p ++ r) = true.
Proof.
  induction p as [|a p IH]; simpl.
  - reflexivity.
  - now rewrite Ascii.eqb_refl, IH.
Qed.

Lemma startswith_inv (p s : string) :
  startswith p s = true -> exists r, s = p ++ r.
Proof.
  revert s; induction p as [|a p IH]; intros s H.
  - now exists s.
  - destruct s as [|b s]; simpl in H; [discriminate|].
    apply andb_true_iff in H as [Hab Hps].
    apply Ascii.eqb_eq in Hab; subst b.
    destruct (IH _ Hps) as [r ->].
    now exists r.
Qed.

(** [sub in s] holds exactly when [s] is some text, then [sub], then some
    text. *)
Lemma str_in_occurs (sub s : string) :
  str_in sub s = true <-> exists a b, s = a ++ sub ++ b.
Proof.
  split.
  - induction s as [|c s IH]; simpl; intros H.
    + destruct (startswith sub "") eqn:E; [|discriminate].
      apply startswith_inv in E as [r E].
      exists "", r. exact E.
    + destruct (startswith sub (String c s)) eqn:E.
      * apply startswith_inv in E as [r E].
        exists "", r. exact E.
      * destruct (IH H) as (a & b & ->).
        now exists (String c a), b.
  - intros (a & b & ->).
    induction a as [|c a IH]; simpl.
    + destruct b, sub; simpl; try reflexivity;
        rewrite Ascii.eqb_refl, startswith_app; reflexivity.
    + rewrite IH. now destruct (startswith sub _).
Qed.

Lemma str_in_empty (s : string) : str_in "" s = true.
Proof. destruct s; reflexivity. Qed.

Lemma lower_empty (q : string) : lower q = "" -> q = "".
Proof. destruct q; [reflexivity | discriminate]. Qed.

Lemma string_app_assoc (a b c : string) : (a ++ b) ++ c = a ++ b ++ c.
Proof. induction a as [|x a IH]; simpl; [reflexivity | now rewrite IH]. Qed.

Lemma string_app_nil_r (a : string) : a ++ "" = a.
Proof. induction a as [|x a IH]; simpl; [reflexivity | now rewrite IH]. Qed.

Lemma length_string_app (a b : string) :
  String.length (a ++ b) = String.length a + String.length b.
Proof. induction a as [|x a IH]; simpl; [reflexivity | now rewrite IH]. Qed.

Lemma str_in_tail_false (sub : string) (c : ascii) (s : string) :
  str_in sub (String c s) = false -> str_in sub s = false.
Proof. simpl. now destruct (startswith sub (String c s)). Qed.

Lemma str_in_start_false (sub s : string) :
  str_in sub s = false -> startswith sub s = false.
Proof.
  destruct s; simpl; destruct (startswith sub _); congruence.
Qed.

(** *** Trimming forgets a final line feed *)



End StringFacts.

(** ** The knowledge base browser *)

Module BrowseFacts.

Import App Browse StringFacts.

Lemma surgery_hit_false (term : string) (s : Surgery) :
  surgery_hit term s = false <->
  name_matches term s = false /\
  forall c, In c (complications s) -> comp_matches term c = false.
Proof.
  unfold surgery_hit. rewrite orb_false_iff.
  split; intros [Hn Hc]; split; trivial.
  - intros c Hin.
    destruct (comp_matches term c) eqn:E; trivial.
    assert (existsb (comp_matches term) (complications s) = true)
      by (apply existsb_exists; eauto).
    congruence.
  - destruct (existsb _ _) eqn:E; trivial.
    apply existsb_exists in E as (c & Hin & Hm).
    rewrite (Hc c Hin) in Hm. discriminate.
Qed.

Lemma scan_complications_none (term : string) (s : Surgery) (cs : list Complication) :
  existsb (comp_matches term) cs = false ->
  scan_complications term s cs = None.
Proof.
  induction cs as [|c cs IH]; simpl; intros H; trivial.
  apply orb_false_iff in H as [Hc Hcs].
  unfold comp_matches in Hc. rewrite Hc. auto.
Qed.

Lemma scan_complications_first (term : string) (s : Surgery)
    (cs1 : list Complication) (c : Complication) (cs2 : list Complication) :
  existsb (comp_matches term) cs1 = false ->
  comp_matches term c = true ->
  scan_complications term s (cs1 ++ c :: cs2)
  = Some (Some (surgery_name s), Some (name c), Some s).
Proof.
  intros H Hc.
  induction cs1 as [|c1 cs1 IH]; simpl.
  - unfold comp_matches in Hc. now rewrite Hc.
  - simpl in H. apply orb_false_iff in H as [H1 H].
    unfold comp_matches in H1. rewrite H1. auto.
Qed.

(** Surgeries that do not answer the search term are passed over. *)
Lemma scan_surgeries_skip (term : string) (pre rest : list Surgery) :
  Forall (fun s => surgery_hit term s = false) pre ->
  scan_surgeries term (pre ++ rest) = scan_surgeries term rest.
Proof.
  induction 1 as [|s pre Hs _ IH]; simpl; trivial.
  apply orb_false_iff in Hs as [Hn Hc].
  unfold name_matches in Hn. rewrite Hn.
  now rewrite (scan_complications_none _ _ _ Hc).
Qed.

Lemma search_nonempty (query : string) (kb : KnowledgeBase) :
  query <> "" ->
  search_knowledge_base query kb = scan_surgeries (lower query) (surgeries kb).
Proof. destruct query; [congruence | reflexivity]. Qed.

(** C1, as amended: in a search with a query that is not empty, the first
    surgery that answers the query, by its own name or by the name of one of
    its complications, decides the result.  When its own name contains the
    lowercased query and it has a complication, the result is that surgery
    with its first listed complication, whatever its complications are called
    and whatever follows it in the knowledge base.  When its own name does
    not, the result is that surgery with the first of its complications whose
    name contains the query.  So the complications of a surgery are scanned
    only when its own name does not match, and the complications of the
    surgeries listed before it are scanned before its name is looked at. *)
Theorem search_first_hit_decides
    (query : string) (kb : KnowledgeBase)
    (pre : list Surgery) (s : Surgery) (post : list Surgery) :
  query <> "" ->
  surgeries kb = (pre ++ s :: post)%list ->
  Forall (fun s' => surgery_hit (lower query) s' = false) pre ->
  (name_matches (lower query) s = true ->
   forall c cs, complications s = c :: cs ->
     search_knowledge_base query kb
     = Return (Some (surgery_name s), Some (name c), Some s))
  /\
  (name_matches (lower query) s = false ->
   forall cs1 c cs2, complications s = (cs1 ++ c :: cs2)%list ->
     existsb (comp_matches (lower query)) cs1 = false ->
     comp_matches (lower query) c = true ->
     search_knowledge_base query kb
     = Return (Some (surgery_name s), Some (name c), Some s)).
Proof.
  intros Hq Hkb Hpre.
  rewrite (search_nonempty _ _ Hq), Hkb, (scan_surgeries_skip _ _ _ Hpre).
  simpl. unfold name_matches.
  split; intros Hn.
  - intros c cs Hcs. now rewrite Hn, Hcs.
  - intros cs1 c cs2 Hcs H1 Hc.
    now rewrite Hn, Hcs, (scan_complications_first _ _ _ _ _ H1 Hc).
Qed.

Lemma search_first_hit_decides_witness :
  search_knowledge_base "Colectomy" kb_sample
  = Return (Some "Colectomy", Some "Anastomotic Leak", Some colectomy)
  /\ search_knowledge_base "hernia" kb_sample
     = Return (Some "Cholecystectomy", Some "Port-site Hernia", Some cholecystectomy).
Proof.
  split.
  - apply (proj1 (search_first_hit_decides "Colectomy" kb_sample
                    [] colectomy [cholecystectomy; hernia_repair]
                    ltac:(discriminate) eq_refl ltac:(constructor))
             eq_refl (comp "Anastomotic Leak") [comp "Bleeding"] eq_refl).
  - apply (proj2 (search_first_hit_decides "hernia" kb_sample
                    [colectomy] cholecystectomy [hernia_repair]
                    ltac:(discriminate) eq_refl
                    ltac:(repeat constructor))
             eq_refl [comp "Bile Duct Injury"] (comp "Port-site Hernia") []
             eq_refl eq_refl eq_refl).
Defined.

(** C1, as stated, fails on [kb_sample]: "hernia" occurs in the name of the
    surgery "Hernia Repair", yet the search answers with "Cholecystectomy" and
    its complication "Port-site Hernia", which it met first. *)
Lemma surgery_name_match_wins_fails :
  ~ surgery_name_match_wins "hernia" kb_sample.
Proof.
  intros H.
  destruct (H hernia_repair) as (c & _ & Hs).
  - simpl; auto.
  - reflexivity.
  - vm_compute in Hs. discriminate Hs.
Qed.

(** C6: the search is case-insensitive in the query.  Two queries with the
    same lowercased text, such as "LEAK" and "leak", get the same result on
    every knowledge base: the same triple, or the same exception. *)
Theorem search_case_insensitive
    (kb : KnowledgeBase) (query1 query2 : string) :
  lower query1 = lower query2 ->
  search_knowledge_base query1 kb = search_knowledge_base query2 kb.
Proof.
  intros H.
  destruct query1 as [|a q1].
  - symmetry in H. apply lower_empty in H. now subst.
  - destruct query2 as [|b q2]; [discriminate H|].
    unfold search_knowledge_base. now rewrite H.
Qed.

Lemma search_case_insensitive_witness :
  search_knowledge_base "LEAK" kb_sample = search_knowledge_base "leak" kb_sample
  /\ search_knowledge_base "leak" kb_sample
     = Return (Some "Colectomy", Some "Anastomotic Leak", Some colectomy).
Proof.
  split.
  - apply (search_case_insensitive kb_sample "LEAK" "leak" eq_refl).
  - reflexivity.
Defined.

(** The loop over the surgeries never ends on the none-triple when its
    search term is empty and there is a surgery to look at: the empty text
    occurs in every name. *)
Lemma scan_empty_term_finds (s : Surgery) (ss : list Surgery) :
  scan_surgeries "" (s :: ss) <> Return none_triple.
Proof.
  simpl. rewrite str_in_empty.
  destruct (complications s); discriminate.
Qed.

(** C7: the search returns the none-triple when the lowercased query occurs
    in no surgery name and in no complication name of the knowledge base.
    On the empty query it returns the none-triple at once, without the scan:
    the scan itself, run on the empty query over a knowledge base that has a
    surgery, does not end on the none-triple. *)
Theorem search_none_triple (query : string) (kb : KnowledgeBase) :
  ((forall s, In s (surgeries kb) ->
      name_matches (lower query) s = false /\
      forall c, In c (complications s) -> comp_matches (lower query) c = false) ->
   search_knowledge_base query kb = Return none_triple)
  /\
  (query = "" ->
   search_knowledge_base query kb = Return none_triple /\
   (surgeries kb <> [] ->
    scan_surgeries (lower query) (surgeries kb) <> Return none_triple)).
Proof.
  split.
  - intros Hno.
    destruct query as [|a q]; [reflexivity|].
    rewrite search_nonempty by discriminate.
    rewrite <- (app_nil_r (surgeries kb)), scan_surgeries_skip; [reflexivity|].
    apply Forall_forall. intros s Hs. apply surgery_hit_false. auto.
  - intros ->. split; [reflexivity|].
    simpl. destruct (surgeries kb) as [|s ss]; [congruence|].
    intros _. apply scan_empty_term_finds.
Qed.

Lemma search_none_triple_witness :
  search_knowledge_base "stroke" kb_sample = Return none_triple
  /\ search_knowledge_base "" kb_sample = Return none_triple
  /\ scan_surgeries (lower "") (surgeries kb_sample) <> Return none_triple.
Proof.
  split; [|split].
  - apply (proj1 (search_none_triple "stroke" kb_sample)).
    intros s Hs. apply surgery_hit_false.
    simpl in Hs.
    repeat (destruct Hs as [<-|Hs]; [reflexivity|]). destruct Hs.
  - apply (proj1 (proj2 (search_none_triple "" kb_sample) eq_refl)).
  - apply (proj2 (proj2 (search_none_triple "" kb_sample) eq_refl)).
    discriminate.
Defined.

(** C10, as amended: in a search with a query that is not empty, when the
    first surgery that answers the query, by its own name or by the name of
    one of its complications, has the lowercased query in its own name and
    has no complication, taking its first complication raises [IndexError]:
    the surgery is not skipped and the none-triple is not returned. *)
Theorem search_empty_surgery_raises
    (query : string) (kb : KnowledgeBase)
    (pre : list Surgery) (s : Surgery) (post : list Surgery) :
  query <> "" ->
  surgeries kb = (pre ++ s :: post)%list ->
  Forall (fun s' => surgery_hit (lower query) s' = false) pre ->
  name_matches (lower query) s = true ->
  complications s = [] ->
  search_knowledge_base query kb = Raise IndexError.
Proof.
  intros Hq Hkb Hpre Hn Hcs.
  rewrite (search_nonempty _ _ Hq), Hkb, (scan_surgeries_skip _ _ _ Hpre).
  simpl. unfold name_matches in Hn. now rewrite Hn, Hcs.
Qed.

Lemma search_empty_surgery_raises_witness :
  search_knowledge_base "hemi" kb_with_empty = Raise IndexError.
Proof.
  apply (search_empty_surgery_raises "hemi" kb_with_empty
           [colectomy] hemicolectomy []
           ltac:(discriminate) eq_refl ltac:(repeat constructor)
           eq_refl eq_refl).
Defined.

(** C10, as stated, fails on [kb_with_empty]: "colectomy" occurs in the name
    of "Hemicolectomy", which has no complication, yet the search returns
    "Colectomy" with "Anastomotic Leak", which it met first. *)
Lemma empty_surgery_match_raises_fails :
  ~ empty_surgery_match_raises "colectomy" kb_with_empty.
Proof.
  intros H.
  specialize (H hemicolectomy).
  assert (Hs : search_knowledge_base "colectomy" kb_with_empty = Raise IndexError).
  { apply H; [simpl; auto | reflexivity | reflexivity]. }
  vm_compute in Hs. discriminate Hs.
Qed.

End BrowseFacts.

(** ** The document preparer and the loader *)

Module PreparedFacts.

Import DataLoader Prepared StringFacts.

(** The inner loop adds the documents of the complications, in order, after
    the documents it was given. *)
Lemma each_complication_app (sn : string) (cat : option string)
    (cs : list Complication) (docs : list Document) :
  each_complication sn cat cs docs = (docs ++ map (make_document sn cat) cs)%list.
Proof.
  revert docs; induction cs as [|c cs IH]; intros docs; simpl.
  - now rewrite app_nil_r.
  - now rewrite IH, <- app_assoc.
Qed.

Lemma each_surgery_app (ss : list Surgery) (docs : list Document) :
  each_surgery ss docs
  = (docs ++ flat_map
               (fun s => map (make_document (surgery_name s) (category s))
                             (complications s)) ss)%list.
Proof.
  revert docs; induction ss as [|s ss IH]; intros docs; simpl.
  - now rewrite app_nil_r.
  - now rewrite IH, each_complication_app, <- app_assoc.
Qed.

Lemma prepare_documents_flat (kb : KnowledgeBase) :
  prepare_documents kb = one_per_complication kb.
Proof. unfold prepare_documents. now rewrite each_surgery_app. Qed.

(** C2: the documents are exactly one per complication, in the order of the
    surgeries and, within a surgery, of its complications; so there are as
    many documents as there are complications in the knowledge base. *)
Theorem prepare_documents_one_per_complication (kb : KnowledgeBase) :
  prepare_documents kb = one_per_complication kb
  /\ List.length (prepare_documents kb) = complication_count kb.
Proof.
  split; [apply prepare_documents_flat|].
  rewrite prepare_documents_flat.
  unfold one_per_complication, complication_count.
  rewrite length_flat_map. f_equal.
  apply map_ext. intros s. apply length_map.
Qed.

(** C4: every complication of the knowledge base has its document, whose
    content is the paragraph in which each clinical field is stood for by
    its own text, or by the marker "N/A" when the field is missing; the
    metadata carry the same texts.  A missing field is thus never rendered
    as the empty text or as "None". *)
Theorem missing_fields_read_NA
    (kb : KnowledgeBase) (s : Surgery) (c : Complication) :
  In s (surgeries kb) ->
  In c (complications s) ->
  exists d e r dg p,
    In d (prepare_documents kb)
    /\ page_content d = paragraph (name c) (surgery_name s) e r dg p
    /\ stands_for (etiology c) e
    /\ stands_for (risk_factors c) r
    /\ stands_for (diagnostic_criteria c) dg
    /\ stands_for (protocol c) p
    /\ Metadata.etiology (metadata d) = e
    /\ Metadata.risk_factors (metadata d) = r
    /\ Metadata.diagnostic_criteria (metadata d) = dg
    /\ Metadata.protocol (metadata d) = p.
Proof.
  intros Hs Hc.
  exists (make_document (surgery_name s) (category s) c),
         (get (etiology c) "N/A"), (get (risk_factors c) "N/A"),
         (get (diagnostic_criteria c) "N/A"), (get (protocol c) "N/A").
  split.
  - rewrite prepare_documents_flat. apply in_flat_map.
    exists s. split; trivial. now apply in_map.
  - split; [reflexivity|].
    repeat split;
      match goal with
      | |- stands_for ?f _ => destruct f; reflexivity
      end.
Qed.

Lemma missing_fields_read_NA_witness :
  exists d,
    In d (prepare_documents kb_partial)
    /\ page_content d
       = "Surgical Complication: Anastomotic Leak during/after Colectomy. Clinical Context (Etiology): Ischemia at the staple line. Key Risk Factors: N/A. Diagnostic Criteria (Signs/Labs/Imaging): N/A. Management Protocol: Step 1: Resuscitate. Step 2: Start antibiotics.".
Proof.
  destruct (missing_fields_read_NA kb_partial
              (mkSurgery "Colectomy" (Some "Colorectal") [leak_partial])
              leak_partial (or_introl eq_refl) (or_introl eq_refl))
    as (d & e & r & dg & p & Hd & Hc & He & Hr & Hdg & Hp & _).
  exists d. split; [exact Hd|].
  simpl in He, Hr, Hdg, Hp. subst e r dg p. exact Hc.
Defined.

(** The label of a document: surgery name, separator, complication name. *)
Lemma sources_of_pairs (kb : KnowledgeBase) :
  sources kb = map (fun p => fst p ++ " - " ++ snd p) (name_pairs kb).
Proof.
  unfold sources, name_pairs. rewrite prepare_documents_flat.
  unfold one_per_complication.
  induction (surgeries kb) as [|s ss IH]; simpl; trivial.
  rewrite !map_app, IH, !map_map. reflexivity.
Qed.

Lemma name_pairs_surgery (kb : KnowledgeBase) (p : string * string) :
  In p (name_pairs kb) ->
  exists s, In s (surgeries kb) /\ fst p = surgery_name s.
Proof.
  unfold name_pairs. intros H.
  apply in_flat_map in H as (s & Hs & Hp).
  apply in_map_iff in Hp as (c & <- & _).
  now exists s.
Qed.

(** A surgery name that starts where the separator of another label starts
    contains a space followed by a hyphen. *)
Lemma separator_overlap (t c1 c2 : string) :
  " - " ++ c1 = t ++ " - " ++ c2 ->
  t = "" \/ str_in " -" t = true.
Proof.
  intros H.
  destruct t as [|a t]; [now left|right].
  simpl in H. injection H as <- H.
  destruct t as [|b t]; simpl in H.
  - discriminate H.
  - injection H as <- _. reflexivity.
Qed.

(** The label determines the two names, when the surgery names have no
    space followed by a hyphen. *)
Lemma source_label_inj (s1 c1 s2 c2 : string) :
  str_in " -" s1 = false ->
  str_in " -" s2 = false ->
  s1 ++ " - " ++ c1 = s2 ++ " - " ++ c2 ->
  s1 = s2 /\ c1 = c2.
Proof.
  revert s2; induction s1 as [|a s1 IH]; intros s2 H1 H2 H.
  - destruct (separator_overlap s2 c1 c2 H) as [-> | Hin]; [|congruence].
    simpl in H. injection H as ->. now split.
  - destruct s2 as [|b s2].
    + symmetry in H.
      destruct (separator_overlap (String a s1) c2 c1 H) as [E | Hin];
        [discriminate E | congruence].
    + simpl in H. injection H as <- H.
      apply str_in_tail_false in H1, H2.
      destruct (IH s2 H1 H2 H) as [-> ->]. now split.
Qed.

(** C3, as amended: when no two complications of the knowledge base have
    the same pair of surgery name and complication name, and no surgery name
    contains a space followed by a hyphen, no two documents have the same
    [source], which is the surgery name, " - ", and the complication name. *)
Theorem sources_unique_for_plain_names (kb : KnowledgeBase) :
  NoDup (name_pairs kb) ->
  (forall s, In s (surgeries kb) -> str_in " -" (surgery_name s) = false) ->
  sources kb = map (fun p => fst p ++ " - " ++ snd p) (name_pairs kb)
  /\ sources_unique kb.
Proof.
  intros Hpairs Hplain.
  split; [apply sources_of_pairs|].
  unfold sources_unique. rewrite sources_of_pairs.
  apply NoDup_map_NoDup_ForallPairs; trivial.
  intros [a1 b1] [a2 b2] Hp1 Hp2 E. simpl in E.
  destruct (name_pairs_surgery _ _ Hp1) as (s1 & Hs1 & E1).
  destruct (name_pairs_surgery _ _ Hp2) as (s2 & Hs2 & E2).
  simpl in E1, E2. subst a1 a2.
  destruct (source_label_inj _ _ _ _ (Hplain _ Hs1) (Hplain _ Hs2) E) as [-> ->].
  reflexivity.
Qed.

Lemma sources_unique_for_plain_names_witness :
  sources Browse.kb_sample
  = ["Colectomy - Anastomotic Leak"; "Colectomy - Bleeding";
     "Cholecystectomy - Bile Duct Injury"; "Cholecystectomy - Port-site Hernia";
     "Hernia Repair - Mesh Infection"]
  /\ sources_unique Browse.kb_sample.
Proof.
  assert (Hpairs : NoDup (name_pairs Browse.kb_sample)).
  { vm_compute.
    repeat (constructor;
            [simpl; intros H;
             repeat (destruct H as [H|H]; [discriminate H|]); exact H|]).
    constructor. }
  assert (Hplain : forall s, In s (surgeries Browse.kb_sample) ->
                             str_in " -" (surgery_name s) = false).
  { simpl. intros s H.
    repeat (destruct H as [<-|H]; [reflexivity|]). destruct H. }
  exact (sources_unique_for_plain_names Browse.kb_sample Hpairs Hplain).
Defined.

(** The surgeries of [kb_collision] have different names, and so have its
    pairs of surgery name and complication name. *)
Example kb_collision_names_distinct :
  NoDup (map surgery_name (surgeries kb_collision))
  /\ NoDup (name_pairs kb_collision).
Proof.
  split; vm_compute;
    (constructor; [intros [H|[]]; discriminate H|]);
    (constructor; [intros []|]); constructor.
Qed.

(** C3, as stated, fails on [kb_collision]: its two surgeries have
    different names and one complication each, and both documents get the
    source "Hernia Repair - Open - Recurrence". *)
Lemma sources_unique_fails : ~ sources_unique kb_collision.
Proof.
  unfold sources_unique. vm_compute.
  intros H. inversion H as [|x l Hin _]. apply Hin. now left.
Qed.

(** C8: when [os.path.exists] says no, the loader prints the diagnostic and
    returns the empty knowledge base, whatever opening or parsing would have
    done; when the file is there and is read, an error of the parser goes to
    the caller, and nothing is printed. *)
Theorem load_missing_or_malformed (w : World) (filepath : string) :
  (path_exists w filepath = false ->
   load_json_knowledgebase w filepath
   = (["Error: Knowledge base file not found at " ++ filepath],
      Return (mkKnowledgeBase [])))
  /\
  (forall text e,
     path_exists w filepath = true ->
     open_read w filepath = Return text ->
     json_load w text = Raise e ->
     load_json_knowledgebase w filepath = ([], Raise e)).
Proof.
  unfold load_json_knowledgebase. split.
  - intros ->. reflexivity.
  - intros text e -> -> ->. reflexivity.
Qed.

Lemma load_missing_or_malformed_witness :
  load_json_knowledgebase world_sample "data/missing.json"
  = (["Error: Knowledge base file not found at data/missing.json"],
     Return (mkKnowledgeBase []))
  /\ load_json_knowledgebase world_sample "data/broken.json"
     = ([], Raise (JSONDecodeError "Expecting property name enclosed in double quotes")).
Proof.
  split.
  - apply (proj1 (load_missing_or_malformed world_sample "data/missing.json") eq_refl).
  - apply (proj2 (load_missing_or_malformed world_sample "data/broken.json")
             "{" _ eq_refl eq_refl eq_refl).
Defined.

End PreparedFacts.

(** ** The answer generator *)

Module GenerationFacts.

Import AiEngine Generation.

(** C9: when the chain returns a completion, [generate_response] returns it
    as it is; when retrieval or completion raises an exception (an instance
    of [Exception]), [generate_response] does not raise: it returns the text
    that describes the error, as if it were an answer. *)
Theorem generate_response_recovers (rag_chain : Chain) (query : string) :
  (forall response,
     invoke rag_chain query = Return response ->
     generate_response rag_chain query = Return response)
  /\
  (forall e,
     invoke rag_chain query = Raise e ->
     is_Exception e = true ->
     generate_response rag_chain query
     = Return ("An error occurred during generation: " ++ str_of e)).
Proof.
  unfold generate_response. split.
  - intros response ->. reflexivity.
  - intros e -> ->. reflexivity.
Qed.

Lemma generate_response_recovers_witness :
  generate_response chain_sample "What causes bile duct injury?"
  = Return "### 1. Diagnosis & Presentation (Signs/Imaging)"
  /\ generate_response chain_sample "What causes bleeding?"
     = Return "An error occurred during generation: 429 Resource has been exhausted".
Proof.
  split.
  - apply (proj1 (generate_response_recovers chain_sample
                    "What causes bile duct injury?") _ eq_refl).
  - apply (proj2 (generate_response_recovers chain_sample
                    "What causes bleeding?") _ eq_refl eq_refl).
Defined.

(** What is not an [Exception] is not caught. *)
Example generate_response_interrupted :
  generate_response chain_interrupted "What causes bleeding?" = Raise KeyboardInterrupt.
Proof. reflexivity. Qed.

End GenerationFacts.

(** ** The protocol formatter *)

Module ProtocolFacts.

Import Protocol Steps Padded StringFacts.

(** *** The marker *)

Lemma literal_length (p s r : string) :
  literal p s = Some r -> String.length s = String.length p + String.length r.
Proof.
  revert s; induction p as [|a p IH]; intros s H; simpl in H.
  - now injection H as ->.
  - destruct s as [|b s]; [discriminate|].
    destruct (Ascii.eqb a b); [|discriminate].
    simpl. now rewrite (IH _ H).
Qed.

Lemma skip_digits_length (s : string) :
  String.length (skip_digits s) <= String.length s.
Proof.
  induction s as [|c s IH]; simpl; [lia|].
  destruct (isdigit c); simpl; lia.
Qed.

(** A marker takes at least one character. *)
Lemma match_marker_shorter (s after : string) :
  match_marker s = Some after -> String.length after < String.length s.
Proof.
  unfold match_marker. intros H.
  destruct (literal "Step " s) as [[|d r]|] eqn:E; try discriminate.
  destruct (isdigit d); [|discriminate].
  apply literal_length in E, H. simpl in E, H.
  pose proof (skip_digits_length r). lia.
Qed.

Lemma lazy_group_splits (s : string) :
  fst (lazy_group s) ++ snd (lazy_group s) = s.
Proof.
  induction s as [|c s IH]; simpl.
  - now destruct (lookahead "").
  - destruct (lookahead (String c s)); [reflexivity|].
    destruct (lazy_group s) as [g r]. simpl in *. now rewrite IH.
Qed.

Lemma lazy_group_rest_length (s : string) :
  String.length (snd (lazy_group s)) <= String.length s.
Proof.
  rewrite <- (lazy_group_splits s) at 2. rewrite length_string_app. lia.
Qed.

(** *** The fuel of [findall] is enough *)

Lemma findall_from_fuel (f1 f2 : nat) (s : string) :
  String.length s < f1 -> String.length s < f2 ->
  findall_from f1 s = findall_from f2 s.
Proof.
  revert f2 s; induction f1 as [|f1 IH]; intros f2 s H1 H2; [lia|].
  destruct f2 as [|f2]; [lia|]. simpl.
  destruct (match_marker s) as [after|] eqn:E.
  - apply match_marker_shorter in E.
    pose proof (lazy_group_rest_length after).
    destruct (lazy_group after) as [g r]. simpl in *.
    f_equal. apply IH; lia.
  - destruct s as [|c s]; [reflexivity|]. simpl in *. apply IH; lia.
Qed.

(** Any fuel above the length of the text gives the result of [findall]. *)
Lemma findall_from_enough (fuel : nat) (s : string) :
  String.length s < fuel -> findall_from fuel s = findall s.
Proof. intros H. apply findall_from_fuel; [exact H | lia]. Qed.

(** The unfolding of [findall] along the scan. *)
Lemma findall_marker (s after : string) :
  match_marker s = Some after ->
  findall s = fst (lazy_group after) :: findall (snd (lazy_group after)).
Proof.
  intros E. unfold findall at 1. simpl. rewrite E.
  apply match_marker_shorter in E.
  pose proof (lazy_group_rest_length after).
  destruct (lazy_group after) as [g r]. simpl in *.
  f_equal. apply findall_from_enough. lia.
Qed.

(** *** The text of a step under the pattern *)




(** No marker starts inside a body that does not hold the word "Step ", nor
    astride its end. *)
Lemma no_marker_inside (b t : string) :
  str_in "Step " b = false -> b <> "" -> follows_body t ->
  match_marker (b ++ t) = None.
Proof.
  intros Hin Hb Ht.
  pose proof (str_in_start_false _ _ Hin) as Hs.
  assert (Hl : literal "Step " (b ++ t) = None).
  { clear Hin.
    assert (Hend : forall p a, literal (String a p) t = None \/ a = "S"%char).
    { intros p a. destruct Ht as [->|[t' ->]]; [now left|].
      cbn [literal]. destruct (Ascii.eqb_spec a "S"); [now right | left].
      destruct (Ascii.eqb_spec a "S"); congruence. }
    destruct b as [|a1 b]; [congruence|].
    cbn [literal startswith append] in *.
    destruct (Ascii.eqb "S" a1); [|reflexivity].
    destruct b as [|a2 b]; cbn [literal startswith append andb] in *;
      [destruct (Hend "ep " "t"%char) as [E|E]; [exact E | discriminate E]|].
    destruct (Ascii.eqb "t" a2); [|reflexivity].
    destruct b as [|a3 b]; cbn [literal startswith append andb] in *;
      [destruct (Hend "p " "e"%char) as [E|E]; [exact E | discriminate E]|].
    destruct (Ascii.eqb "e" a3); [|reflexivity].
    destruct b as [|a4 b]; cbn [literal startswith append andb] in *;
      [destruct (Hend " " "p"%char) as [E|E]; [exact E | discriminate E]|].
    destruct (Ascii.eqb "p" a4); [|reflexivity].
    destruct b as [|a5 b]; cbn [literal startswith append andb] in *;
      [destruct (Hend "" " "%char) as [E|E]; [exact E | discriminate E]|].
    destruct (Ascii.eqb " " a5); [discriminate Hs | reflexivity]. }
  unfold match_marker. now rewrite Hl.
Qed.










(** *** Trimming takes the whitespace off both ends *)













End ProtocolFacts.

(** ** More on the knowledge base browser *)

Module SearchFacts.

Import App Browse Explorer StringFacts BrowseFacts.

(** The inner loop returns the first complication whose name matches. *)
Lemma scan_complications_find (term : string) (s : Surgery)
    (cs : list Complication) :
  scan_complications term s cs
  = option_map (fun c => (Some (surgery_name s), Some (name c), Some s))
               (find (comp_matches term) cs).
Proof.
  induction cs as [|c cs IH]; simpl; trivial.
  unfold comp_matches at 1. now destruct (str_in term (lower (name c))).
Qed.

Lemma find_hit_exists (term : string) (cs : list Complication) (c : Complication) :
  find (comp_matches term) cs = Some c ->
  existsb (comp_matches term) cs = true.
Proof.
  intros H. apply find_some in H as [Hin Hc].
  apply existsb_exists. eauto.
Qed.

(** What the loop over the surgeries returns: the none-triple after passing
    over every surgery, or a surgery of the list with the complication that
    its name match or its scan selects. *)
Lemma scan_surgeries_return (term : string) (ss : list Surgery) (r : triple) :
  scan_surgeries term ss = Return r ->
  (r = none_triple /\ Forall (fun s => surgery_hit term s = false) ss)
  \/ exists s c,
       r = (Some (surgery_name s), Some (name c), Some s)
       /\ In s ss
       /\ ((name_matches term s = true /\ hd_error (complications s) = Some c)
           \/ (name_matches term s = false
               /\ find (comp_matches term) (complications s) = Some c)).
Proof.
  induction ss as [|s ss IH]; simpl; intros H.
  - injection H as <-. left. split; [reflexivity | constructor].
  - destruct (str_in term (lower (surgery_name s))) eqn:Hn.
    + destruct (complications s) as [|c cs] eqn:Hcs; [discriminate H|].
      injection H as <-. right. exists s, c.
      split; [reflexivity|]. split; [now left|].
      left. unfold name_matches. rewrite Hcs. now split.
    + rewrite scan_complications_find in H.
      destruct (find (comp_matches term) (complications s)) as [c|] eqn:Hf;
        simpl in H.
      * injection H as <-. right. exists s, c.
        split; [reflexivity|]. split; [now left|]. now right.
      * destruct (IH H) as [[-> Hall] | (s' & c & -> & Hin & Hwhy)].
        -- left. split; [reflexivity|]. constructor; [|exact Hall].
           unfold surgery_hit, name_matches. rewrite Hn. simpl.
           destruct (existsb _ _) eqn:E; trivial.
           apply existsb_exists in E as (c & Hc & Hm).
           now rewrite (find_none _ _ Hf c Hc) in Hm.
        -- right. exists s', c. split; [reflexivity|]. split; [now right|].
           exact Hwhy.
Qed.

(** What the loop over the surgeries raises. *)
Lemma scan_surgeries_raise (term : string) (ss : list Surgery) (e : exn) :
  scan_surgeries term ss = Raise e ->
  e = IndexError
  /\ exists s, In s ss /\ name_matches term s = true /\ complications s = [].
Proof.
  induction ss as [|s ss IH]; simpl; intros H; [discriminate H|].
  destruct (str_in term (lower (surgery_name s))) eqn:Hn.
  - destruct (complications s) as [|c cs] eqn:Hcs; [|discriminate H].
    injection H as <-. split; [reflexivity|].
    exists s. repeat split; auto.
  - destruct (scan_complications term s (complications s)); [discriminate H|].
    destruct (IH H) as (-> & s' & Hin & Hs'). split; [reflexivity|].
    exists s'. split; [now right | exact Hs'].
Qed.

(** The cases of a search that returns. *)
Lemma search_return_cases (query : string) (kb : KnowledgeBase) (r : triple) :
  search_knowledge_base query kb = Return r ->
  r = none_triple
  \/ exists s c,
       r = (Some (surgery_name s), Some (name c), Some s)
       /\ In s (surgeries kb)
       /\ In c (complications s)
       /\ ((name_matches (lower query) s = true
            /\ hd_error (complications s) = Some c)
           \/ (name_matches (lower query) s = false
               /\ find (comp_matches (lower query)) (complications s) = Some c
               /\ comp_matches (lower query) c = true)).
Proof.
  destruct query as [|a q]; simpl search_knowledge_base; intros H.
  - injection H as <-. now left.
  - apply scan_surgeries_return in H as [[-> _] | (s & c & -> & Hin & Hwhy)];
      [now left | right].
    exists s, c. split; [reflexivity|]. split; [exact Hin|].
    destruct Hwhy as [[Hn Hhd] | [Hn Hf]].
    + split; [|now left].
      destruct (complications s); simpl in Hhd; [discriminate|].
      injection Hhd as ->. now left.
    + pose proof (find_some _ _ Hf) as [Hc Hm].
      split; [exact Hc|]. right. auto.
Qed.

(** X1: whatever the search returns is in the knowledge base.  A result
    other than the none-triple names a surgery of the knowledge base and one
    of its complications, by their own names, and comes with that surgery
    itself; either the surgery matched by its name and the complication is
    its first one, or the surgery did not and the complication is the first
    of its complications whose name contains the lowercased query. *)
Theorem search_result_sound (query : string) (kb : KnowledgeBase) (r : triple) :
  search_knowledge_base query kb = Return r ->
  r = none_triple
  \/ exists s c,
       r = (Some (surgery_name s), Some (name c), Some s)
       /\ In s (surgeries kb)
       /\ In c (complications s)
       /\ ((name_matches (lower query) s = true
            /\ hd_error (complications s) = Some c)
           \/ (name_matches (lower query) s = false
               /\ find (comp_matches (lower query)) (complications s) = Some c
               /\ comp_matches (lower query) c = true)).
Proof. apply search_return_cases. Qed.

Lemma search_result_sound_witness :
  exists s c,
    (Some "Cholecystectomy", Some "Bile Duct Injury", Some cholecystectomy)
    = (Some (surgery_name s), Some (name c), Some s)
    /\ In s (surgeries kb_sample)
    /\ In c (complications s).
Proof.
  destruct (search_result_sound "bile duct" kb_sample
              (Some "Cholecystectomy", Some "Bile Duct Injury",
               Some cholecystectomy) eq_refl)
    as [H | (s & c & E & Hs & Hc & _)].
  - discriminate H.
  - exists s, c. auto.
Defined.

(** X2: a query that is not empty gets the none-triple exactly when no
    surgery of the knowledge base answers it, by its name or by the name of
    one of its complications. *)
Theorem search_none_iff_no_hit (query : string) (kb : KnowledgeBase) :
  query <> "" ->
  (search_knowledge_base query kb = Return none_triple
   <-> forall s, In s (surgeries kb) -> surgery_hit (lower query) s = false).
Proof.
  intros Hq. rewrite (search_nonempty _ _ Hq). split.
  - intros H.
    apply scan_surgeries_return in H as [[_ Hall] | (s & c & E & _)].
    + now apply Forall_forall.
    + discriminate E.
  - intros Hall.
    rewrite <- (app_nil_r (surgeries kb)), scan_surgeries_skip; [reflexivity|].
    now apply Forall_forall.
Qed.

Lemma search_none_iff_no_hit_witness :
  search_knowledge_base "stroke" kb_sample = Return none_triple
  <-> forall s, In s (surgeries kb_sample) -> surgery_hit (lower "stroke") s = false.
Proof.
  apply (search_none_iff_no_hit "stroke" kb_sample). discriminate.
Defined.

Lemma scan_surgeries_app (term : string) (ss extra : list Surgery) :
  (scan_surgeries term ss = Return none_triple ->
   scan_surgeries term (ss ++ extra) = scan_surgeries term extra)
  /\ (scan_surgeries term ss <> Return none_triple ->
      scan_surgeries term (ss ++ extra) = scan_surgeries term ss).
Proof.
  induction ss as [|s ss [IH1 IH2]]; simpl.
  - split; [reflexivity | congruence].
  - destruct (str_in term (lower (surgery_name s))).
    + destruct (complications s); split; trivial; discriminate.
    + rewrite scan_complications_find.
      destruct (find (comp_matches term) (complications s)); simpl.
      * split; trivial; discriminate.
      * now split.
Qed.

(** X4: the first match wins.  Surgeries added at the end of the knowledge
    base do not change a search that found something or raised; a search
    that found nothing goes on to the added surgeries. *)
Theorem search_first_match_stable (query : string) (ss extra : list Surgery) :
  (search_knowledge_base query (mkKnowledgeBase ss) <> Return none_triple ->
   search_knowledge_base query (mkKnowledgeBase (ss ++ extra))
   = search_knowledge_base query (mkKnowledgeBase ss))
  /\
  (search_knowledge_base query (mkKnowledgeBase ss) = Return none_triple ->
   search_knowledge_base query (mkKnowledgeBase (ss ++ extra))
   = search_knowledge_base query (mkKnowledgeBase extra)).
Proof.
  destruct query as [|a q]; simpl search_knowledge_base.
  - split; [congruence | reflexivity].
  - split; apply scan_surgeries_app.
Qed.

Lemma search_first_match_stable_witness :
  search_knowledge_base "leak" (mkKnowledgeBase ([colectomy] ++ [hemicolectomy]))
  = search_knowledge_base "leak" (mkKnowledgeBase [colectomy])
  /\ search_knowledge_base "hemi" (mkKnowledgeBase ([colectomy] ++ [hemicolectomy]))
     = search_knowledge_base "hemi" (mkKnowledgeBase [hemicolectomy]).
Proof.
  split.
  - apply (proj1 (search_first_match_stable "leak" [colectomy] [hemicolectomy])).
    discriminate.
  - apply (proj2 (search_first_match_stable "hemi" [colectomy] [hemicolectomy])).
    reflexivity.
Defined.

Lemma find_first_by_name (term : string) (cs : list Complication) (c : Complication) :
  find (comp_matches term) cs = Some c ->
  find (fun c' => (name c' =? name c)%string) cs = Some c.
Proof.
  induction cs as [|c0 cs IH]; simpl; [discriminate|].
  destruct (comp_matches term c0) eqn:E0.
  - intros H. injection H as ->. now rewrite String.eqb_refl.
  - intros H. destruct (String.eqb_spec (name c0) (name c)) as [En|_]; [|auto].
    apply find_some in H as [_ Hc].
    unfold comp_matches in E0, Hc. rewrite En in E0. congruence.
Qed.

(** X5: the detail view after a search.  The selection is valid exactly
    when the search returned something other than the none-triple; then the
    result comes with its surgery, and looking its complication name up in
    that surgery finds the very complication the search selected, never the
    placeholder texts. *)
Theorem search_then_detail (query : string) (kb : KnowledgeBase) (r : triple) :
  search_knowledge_base query kb = Return r ->
  (is_valid_selection r = false /\ r = none_triple)
  \/ (is_valid_selection r = true
      /\ exists s c,
           r = (Some (surgery_name s), Some (name c), Some s)
           /\ In c (complications s)
           /\ selected_comp_data s (name c) = Some c).
Proof.
  intros H.
  destruct (search_return_cases _ _ _ H) as [-> | (s & c & -> & _ & Hc & Hwhy)];
    [now left | right].
  split; [reflexivity|]. exists s, c.
  split; [reflexivity|]. split; [exact Hc|].
  unfold selected_comp_data.
  destruct Hwhy as [[_ Hhd] | (_ & Hf & _)].
  - destruct (complications s) as [|c0 cs]; simpl in Hhd; [discriminate|].
    injection Hhd as ->. simpl. now rewrite String.eqb_refl.
  - exact (find_first_by_name _ _ _ Hf).
Qed.

Lemma search_then_detail_witness :
  exists s c,
    (Some "Cholecystectomy", Some "Port-site Hernia", Some cholecystectomy)
    = (Some (surgery_name s), Some (name c), Some s)
    /\ selected_comp_data s (name c) = Some c.
Proof.
  destruct (search_then_detail "hernia" kb_sample
              (Some "Cholecystectomy", Some "Port-site Hernia",
               Some cholecystectomy) eq_refl)
    as [[H _] | (_ & s & c & E & _ & Hd)].
  - discriminate H.
  - exists s, c. auto.
Defined.

Lemma find_offered {A : Type} (key : A -> string) (l : list A) (n : string) :
  In n (map key l) ->
  exists x, find (fun y => (key y =? n)%string) l = Some x
            /\ key x = n /\ In x l.
Proof.
  intros H.
  destruct (find (fun y => (key y =? n)%string) l) as [x|] eqn:E.
  - exists x. apply find_some in E as [Hin Hk].
    apply String.eqb_eq in Hk. auto.
  - apply in_map_iff in H as (x & Hk & Hin).
    pose proof (find_none _ _ E x Hin) as Hx. simpl in Hx.
    rewrite Hk, String.eqb_refl in Hx. discriminate Hx.
Qed.

(** X6: the dropdowns.  A name chosen in the surgery menu, other than the
    placeholder, resolves to a surgery of the knowledge base with that name;
    a name chosen in its complication menu, other than the placeholder,
    makes the selection valid and resolves to one of its complications with
    that name: a choice from the menus never ends on no surgery or on the
    placeholder texts.  With the placeholder in the surgery menu nothing is
    selected, even when a surgery has that very name. *)
Theorem dropdown_choice_resolves (kb : KnowledgeBase) (choice : string) :
  (choice = PH_SURGERY ->
   forall comp_choice, explorer_selection kb choice comp_choice = (None, false))
  /\
  (In choice (surgery_names kb) ->
   choice <> PH_SURGERY ->
   exists s,
     surgery_name s = choice
     /\ In s (surgeries kb)
     /\ forall comp_choice,
          In comp_choice (comp_names_list s) ->
          comp_choice <> PH_COMPLICATION ->
          explorer_selection kb choice comp_choice = (Some s, true)
          /\ exists c, selected_comp_data s comp_choice = Some c
                       /\ name c = comp_choice
                       /\ In c (complications s)).
Proof.
  split.
  - intros -> comp_choice. reflexivity.
  - intros H Hph.
    destruct (find_offered surgery_name (surgeries kb) choice H)
      as (s & Hf & Hn & Hin).
    exists s. split; [exact Hn|]. split; [exact Hin|].
    intros comp_choice Hc Hcph. split.
    + unfold explorer_selection.
      apply String.eqb_neq in Hph. rewrite Hph. simpl.
      unfold selected_surgery. rewrite Hf.
      apply String.eqb_neq in Hcph. now rewrite Hcph.
    + exact (find_offered name (complications s) comp_choice Hc).
Qed.

Lemma dropdown_choice_resolves_witness :
  exists s,
    surgery_name s = "Cholecystectomy"
    /\ explorer_selection kb_sample "Cholecystectomy" "Bile Duct Injury"
       = (Some s, true).
Proof.
  destruct (proj2 (dropdown_choice_resolves kb_sample "Cholecystectomy"))
    as (s & Hn & Hin & Hc).
  - simpl. auto.
  - discriminate.
  - exists s. split; [exact Hn|].
    apply Hc; [|discriminate].
    simpl in Hin.
    destruct Hin as [<-|[<-|[<-|[]]]]; simpl in *; try discriminate; auto.
Defined.

End SearchFacts.

(** ** The summary of the knowledge base *)

Module SummaryFacts.

Import Explorer Listing StringFacts.

Lemma each_summary_cons (s : Surgery) (ss : list Surgery) (acc : string) :
  each_summary (s :: ss) acc = each_summary ss (acc ++ summary_entry s).
Proof.
  cbn [each_summary]. unfold summary_entry. f_equal.
  now rewrite !string_app_assoc.
Qed.

Lemma each_summary_acc (ss : list Surgery) (acc : string) :
  each_summary ss acc = acc ++ each_summary ss "".
Proof.
  revert acc; induction ss as [|s ss IH]; intros acc.
  - cbn [each_summary]. now rewrite string_app_nil_r.
  - rewrite !each_summary_cons, IH, (IH ("" ++ summary_entry s)).
    now rewrite !string_app_assoc.
Qed.

Lemma each_summary_app (ss1 ss2 : list Surgery) :
  each_summary (ss1 ++ ss2) "" = each_summary ss1 "" ++ each_summary ss2 "".
Proof.
  induction ss1 as [|s ss1 IH].
  - reflexivity.
  - change ((s :: ss1) ++ ss2)%list with (s :: (ss1 ++ ss2))%list.
    rewrite !each_summary_cons, each_summary_acc, IH,
      (each_summary_acc ss1 ("" ++ summary_entry s)).
    now rewrite !string_app_assoc.
Qed.

(** X7: the summary filters nothing.  Every surgery of the knowledge base
    has its two lines in the summary: its name in bold with its category,
    "General" when the category is missing, then, after a space and a
    no-break space, "- Complications: " and the names of its complications
    joined by ", " (none for a surgery without complications). *)
Theorem summary_lists_every_surgery (kb : KnowledgeBase) (s : Surgery) :
  In s (surgeries kb) ->
  str_in (summary_entry s) (get_protocol_summary kb) = true.
Proof.
  intros H. apply in_split in H as (ss1 & ss2 & E).
  apply str_in_occurs.
  exists (each_summary ss1 ""), (each_summary ss2 "").
  unfold get_protocol_summary. rewrite E, each_summary_app.
  f_equal. rewrite each_summary_cons, each_summary_acc. reflexivity.
Qed.

Lemma summary_lists_every_surgery_witness :
  str_in ("- **Hemicolectomy** (`General`)" ++ nl
          ++ " " ++ nbsp ++ "- Complications: " ++ nl)
         (get_protocol_summary Browse.kb_with_empty) = true.
Proof.
  apply (summary_lists_every_surgery Browse.kb_with_empty Browse.hemicolectomy).
  simpl. auto.
Defined.

(** X8: the summary goes surgery by surgery, in order: the summary of two
    lists of surgeries put end to end is the summary of the first followed
    by the summary of the second. *)
Theorem summary_of_concatenation (ss1 ss2 : list Surgery) :
  get_protocol_summary (mkKnowledgeBase (ss1 ++ ss2))
  = get_protocol_summary (mkKnowledgeBase ss1)
    ++ get_protocol_summary (mkKnowledgeBase ss2).
Proof. apply each_summary_app. Qed.

End SummaryFacts.

(** ** More on the documents, the loader and the generator *)

Module PipelineFacts.

Import App DataLoader Prepared Explorer AiEngine Generation PreparedFacts.

(** X9: no document comes from nowhere.  Every prepared document is the
    document of a complication of a surgery of the knowledge base; its
    [source] is its [surgery], " - ", and its [complication], and its
    [category] is the one of that surgery. *)
Theorem document_provenance (kb : KnowledgeBase) (d : Document) :
  In d (prepare_documents kb) ->
  exists s c,
    In s (surgeries kb) /\ In c (complications s)
    /\ d = make_document (surgery_name s) (category s) c
    /\ Metadata.surgery (metadata d) = surgery_name s
    /\ Metadata.complication (metadata d) = name c
    /\ Metadata.category (metadata d) = category s
    /\ Metadata.source (metadata d)
       = Metadata.surgery (metadata d) ++ " - " ++ Metadata.complication (metadata d).
Proof.
  rewrite prepare_documents_flat. unfold one_per_complication. intros H.
  apply in_flat_map in H as (s & Hs & Hd).
  apply in_map_iff in Hd as (c & <- & Hc).
  exists s, c. repeat split; trivial.
Qed.

Lemma document_provenance_witness :
  exists s c,
    In s (surgeries kb_partial) /\ In c (complications s)
    /\ Metadata.source
         (metadata (make_document "Colectomy" (Some "Colorectal") leak_partial))
       = surgery_name s ++ " - " ++ name c.
Proof.
  destruct (document_provenance kb_partial
              (make_document "Colectomy" (Some "Colorectal") leak_partial)
              (or_introl eq_refl))
    as (s & c & Hs & Hc & _ & Es & Ec & _ & Esrc).
  exists s, c. rewrite <- Es, <- Ec. auto.
Defined.

(** X10: the documents go surgery by surgery: the documents of two lists of
    surgeries put end to end are the documents of the first followed by the
    documents of the second. *)
Theorem prepare_documents_of_concatenation (ss1 ss2 : list Surgery) :
  prepare_documents (mkKnowledgeBase (ss1 ++ ss2))
  = (prepare_documents (mkKnowledgeBase ss1)
     ++ prepare_documents (mkKnowledgeBase ss2))%list.
Proof.
  rewrite !prepare_documents_flat. unfold one_per_complication. simpl.
  apply flat_map_app.
Qed.

(** X11: a missing file leaves the application with nothing to show.  The
    knowledge base the loader returns then has no document to index, an
    empty summary, no name for the surgery menu, and the none-triple for
    every search. *)
Theorem missing_file_degrades (w : World) (filepath : string) :
  path_exists w filepath = false ->
  exists kb,
    snd (load_json_knowledgebase w filepath) = Return kb
    /\ prepare_documents kb = []
    /\ get_protocol_summary kb = ""
    /\ surgery_names kb = []
    /\ forall query, search_knowledge_base query kb = Return none_triple.
Proof.
  intros H. unfold load_json_knowledgebase. rewrite H. simpl.
  eexists. split; [reflexivity|]. repeat split.
  intros query. now destruct query.
Qed.

Lemma missing_file_degrades_witness :
  exists kb,
    snd (load_json_knowledgebase world_sample "data/missing.json") = Return kb
    /\ prepare_documents kb = [].
Proof.
  destruct (missing_file_degrades world_sample "data/missing.json" eq_refl)
    as (kb & Hkb & Hdocs & _).
  exists kb. auto.
Defined.

(** X12: when the path exists the loader prints nothing; an error on
    opening the file, as for a directory or a file that may not be read,
    goes to the caller, and so does the knowledge base that the parser
    returns. *)
Theorem load_existing_path (w : World) (filepath : string) :
  path_exists w filepath = true ->
  fst (load_json_knowledgebase w filepath) = []
  /\ (forall e, open_read w filepath = Raise e ->
        snd (load_json_knowledgebase w filepath) = Raise e)
  /\ (forall text, open_read w filepath = Return text ->
        snd (load_json_knowledgebase w filepath) = json_load w text).
Proof.
  intros H. unfold load_json_knowledgebase. rewrite H. simpl.
  destruct (open_read w filepath) as [text|e]; simpl;
    (split; [reflexivity|]); split; intros; congruence.
Qed.

Lemma load_existing_path_witness :
  load_json_knowledgebase world_sample "data/surgical_knowledge.json"
  = ([], Return kb_partial).
Proof.
  destruct (load_existing_path world_sample "data/surgical_knowledge.json" eq_refl)
    as (Hout & _ & Hok).
  specialize (Hok "{...}" eq_refl).
  destruct (load_json_knowledgebase world_sample "data/surgical_knowledge.json")
    as [out res].
  simpl in Hout, Hok. now subst.
Defined.

(** X13: [generate_response] raises no [Exception].  When it raises, the
    chain raised the same thing, and that was not an instance of
    [Exception]. *)
Theorem generate_response_raise (rag_chain : Chain) (query : string) (e : exn) :
  generate_response rag_chain query = Raise e ->
  is_Exception e = false /\ invoke rag_chain query = Raise e.
Proof.
  unfold generate_response.
  destruct (invoke rag_chain query) as [response|e']; [discriminate|].
  destruct (is_Exception e') eqn:E; [discriminate|].
  intros H. injection H as <-. now split.
Qed.

Lemma generate_response_raise_witness :
  is_Exception KeyboardInterrupt = false
  /\ invoke chain_interrupted "What causes bleeding?" = Raise KeyboardInterrupt.
Proof.
  apply (generate_response_raise chain_interrupted "What causes bleeding?"
           KeyboardInterrupt eq_refl).
Defined.

(** X17: the two modes cover the same pairs.  Whatever pair of surgery and
    complication the search returns has its document among the prepared
    ones, with the [source] made of the two names it returns. *)
Theorem search_result_is_indexed
    (query : string) (kb : KnowledgeBase)
    (sn cn : string) (s : Surgery) :
  search_knowledge_base query kb = Return (Some sn, Some cn, Some s) ->
  exists d,
    In d (prepare_documents kb)
    /\ Metadata.surgery (metadata d) = sn
    /\ Metadata.complication (metadata d) = cn
    /\ Metadata.source (metadata d) = sn ++ " - " ++ cn.
Proof.
  intros H.
  destruct (SearchFacts.search_return_cases _ _ _ H)
    as [E | (s' & c & E & Hs & Hc & _)]; [discriminate E|].
  injection E as -> -> ->.
  exists (make_document (surgery_name s') (category s') c).
  split; [|repeat split].
  rewrite prepare_documents_flat. apply in_flat_map.
  exists s'. split; [exact Hs|]. now apply in_map.
Qed.

Lemma search_result_is_indexed_witness :
  exists d,
    In d (prepare_documents Browse.kb_sample)
    /\ Metadata.source (metadata d) = "Cholecystectomy - Port-site Hernia".
Proof.
  destruct (search_result_is_indexed "hernia" Browse.kb_sample
              "Cholecystectomy" "Port-site Hernia" Browse.cholecystectomy eq_refl)
    as (d & Hd & _ & _ & Hsrc).
  exists d. auto.
Defined.

End PipelineFacts.

(** ** More on the protocol formatter *)

Module FormatterFacts.

Import Protocol Steps Markers StringFacts ProtocolFacts.

Lemma findall_from_no_marker (fuel : nat) (s : string) :
  has_marker s = false -> findall_from fuel s = [].
Proof.
  revert s; induction fuel as [|fuel IH]; intros s H; [reflexivity|].
  cbn [findall_from].
  destruct s as [|c s]; cbn [has_marker] in H;
    destruct (match_marker _); try discriminate; auto.
Qed.

(** A text without the word that starts a marker has no marker. *)
Lemma no_step_word_no_marker (s : string) :
  str_in "Step " s = false -> has_marker s = false.
Proof.
  induction s as [|c s IH]; intros H.
  - reflexivity.
  - cbn [has_marker].
    rewrite <- (string_app_nil_r (String c s)) at 1.
    rewrite (no_marker_inside (String c s) "" H); [|discriminate|now left].
    apply IH. exact (str_in_tail_false _ _ _ H).
Qed.

(** X14: the fallback.  A text in which the pattern [Step \d+: ] matches
    nowhere is shown as it is; so is, in particular, a text without the
    word "Step " and the empty text. *)
Theorem format_protocol_fallback (protocol_text : string) :
  (has_marker protocol_text = false ->
   format_protocol protocol_text = protocol_text)
  /\ (str_in "Step " protocol_text = false ->
      format_protocol protocol_text = protocol_text).
Proof.
  assert (H : has_marker protocol_text = false ->
              format_protocol protocol_text = protocol_text).
  { intros Hm. unfold format_protocol, findall.
    now rewrite (findall_from_no_marker _ _ Hm). }
  split; [exact H|].
  intros Hw. apply H, no_step_word_no_marker, Hw.
Qed.

Lemma format_protocol_fallback_witness :
  format_protocol "Step carefully: 1 unit at a time"
  = "Step carefully: 1 unit at a time"
  /\ format_protocol "Observe for 24 hours." = "Observe for 24 hours.".
Proof.
  split.
  - apply (proj1 (format_protocol_fallback "Step carefully: 1 unit at a time")).
    reflexivity.
  - apply (proj2 (format_protocol_fallback "Observe for 24 hours.")).
    reflexivity.
Defined.

Lemma findall_skip (c : ascii) (s : string) :
  match_marker (String c s) = None ->
  findall (String c s) = findall s.
Proof.
  intros H. unfold findall at 1. cbn [String.length findall_from].
  now rewrite H.
Qed.

Lemma marker_starts_with_S (t after : string) :
  match_marker t = Some after -> exists t', t = String "S"%char t'.
Proof.
  unfold match_marker. intros H.
  destruct t as [|a t]; [discriminate H|].
  cbn [literal] in H.
  destruct (Ascii.eqb_spec "S" a) as [<-|_]; [now exists t | discriminate H].
Qed.

(** What comes before the first marker is not searched into a group. *)
Lemma findall_preamble (pre t after : string) :
  str_in "Step " pre = false ->
  match_marker t = Some after ->
  findall (pre ++ t) = findall t.
Proof.
  intros Hpre Hm.
  induction pre as [|c pre IH]; [reflexivity|].
  cbn [append]. rewrite findall_skip.
  - apply IH. exact (str_in_tail_false _ _ _ Hpre).
  - change (String c (pre ++ t)) with (String c pre ++ t).
    apply no_marker_inside; [exact Hpre | discriminate | right].
    exact (marker_starts_with_S _ _ Hm).
Qed.

(** X15: what comes before the first marker is lost.  When the text starts
    with some words that do not hold "Step " and goes on with a marker, the
    formatter shows what it shows for the text from the marker on: the words
    in front appear nowhere in the list. *)
Theorem format_protocol_drops_preamble (pre t after : string) :
  str_in "Step " pre = false ->
  match_marker t = Some after ->
  format_protocol (pre ++ t) = format_protocol t.
Proof.
  intros Hpre Hm. unfold format_protocol.
  rewrite (findall_preamble _ _ _ Hpre Hm), (findall_marker _ _ Hm).
  reflexivity.
Qed.

Lemma format_protocol_drops_preamble_witness :
  format_protocol ("Management: " ++ "Step 1: Resuscitate. Step 2: Operate.")
  = unlines ["1. **Resuscitate.**"; "2. **Operate.**"].
Proof.
  rewrite (format_protocol_drops_preamble
             "Management: " "Step 1: Resuscitate. Step 2: Operate."
             "Resuscitate. Step 2: Operate." eq_refl eq_refl).
  reflexivity.
Defined.

Lemma number_steps_groups (groups : list string) (i : nat) (acc : string) :
  number_steps i groups acc = acc ++ unlines (items_from (S i) groups).
Proof.
  revert i acc; induction groups as [|g gs IH]; intros i acc;
    cbn [number_steps items_from unlines].
  - now rewrite string_app_nil_r.
  - rewrite IH. unfold numbered_line. rewrite Nat.add_1_r.
    now rewrite !string_app_assoc.
Qed.

Lemma has_marker_findall (s : string) :
  has_marker s = true -> findall s <> [].
Proof.
  induction s as [|c s IH]; cbn [has_marker].
  - destruct (match_marker "") eqn:E; [|discriminate].
    intros _. rewrite (findall_marker _ _ E). discriminate.
  - destruct (match_marker (String c s)) eqn:E.
    + intros _. rewrite (findall_marker _ _ E). discriminate.
    + intros H. rewrite (findall_skip _ _ E). auto.
Qed.

(** X16: as soon as the pattern matches somewhere, the text itself is not
    shown: the formatter shows the groups that the pattern extracts, each
    trimmed and set in bold, numbered from 1 in the order of the text, one
    per line. *)
Theorem format_protocol_with_marker (protocol_text : string) :
  has_marker protocol_text = true ->
  findall protocol_text <> []
  /\ format_protocol protocol_text
     = unlines (items_from 1 (findall protocol_text)).
Proof.
  intros H. apply has_marker_findall in H. split; [exact H|].
  unfold format_protocol.
  destruct (findall protocol_text) as [|g gs]; [congruence|].
  now rewrite number_steps_groups.
Qed.

Lemma format_protocol_with_marker_witness :
  findall "Call the surgeon. Step 3: Step 4: Drain." <> []
  /\ format_protocol "Call the surgeon. Step 3: Step 4: Drain."
     = unlines (items_from 1 (findall "Call the surgeon. Step 3: Step 4: Drain.")).
Proof.
  apply (format_protocol_with_marker "Call the surgeon. Step 3: Step 4: Drain.").
  reflexivity.
Defined.

End FormatterFacts.

(** ** The search on dictionaries with missing keys *)

Module RawFacts.

Import RawBrowse.





(** Where the search raises on missing keys. *)
Example raw_search_key_errors :
  Raw.search_knowledge_base "append" kb_no_complications
  = Raw.Raises (Raw.KeyError "complications")
  /\ Raw.search_knowledge_base "leak" kb_no_complications
     = Raw.Returns (Some "Colectomy", Some "Anastomotic Leak",
                    Some (raw_surgery Browse.colectomy))
  /\ Raw.search_knowledge_base "stroke" kb_no_complications
     = Raw.Raises (Raw.KeyError "complications")
  /\ Raw.search_knowledge_base "append" kb_no_name
     = Raw.Raises (Raw.KeyError "name")
  /\ Raw.search_knowledge_base "leak" (Raw.mkKnowledgeBase None)
     = Raw.Raises (Raw.KeyError "surgeries")
  /\ Raw.search_knowledge_base "" (Raw.mkKnowledgeBase None)
     = Raw.Returns Raw.none_triple.
Proof. repeat split. Qed.




End RawFacts.
